(** * Shallow embedding of [src/dangerous_open_internet.rs] and of the
      address handlers of [src/ridiculous_routing.rs]

    The manifest endpoint (POST /5/manifest): content-type dispatch, the
    three format adapters (TOML, YAML, JSON), the generic [Manifest<T>]
    schema, [parse_manifest] and the mapping of [ManifestParseError] to a
    response.

    The parsers and serialisers of the [toml], [serde_yaml] and [serde_json]
    crates and the [cargo_manifest] checker are crates outside this
    repository; they are taken as parameters ([Collab] below), and every
    statement quantifies over them.  Their value trees are represented by
    one shared tree type [Val]: a TOML [Value], a [serde_yaml::Value] and a
    [serde_json::Value] with the same content are the same [Val]. *)

From Stdlib Require Import String Ascii List Bool ZArith Lia.
Import ListNotations.
Open Scope string_scope.
Open Scope Z_scope.
Set Warnings "-register-all".

(** ** Value trees *)

(** The untyped tree a format's parser produces.  Floats are kept only by
    their source text: no arithmetic is done on them. *)
Inductive Val : Type :=
| VNull : Val
| VBool : bool -> Val
| VInt : Z -> Val
| VFloat : string -> Val
| VStr : string -> Val
| VArr : list Val -> Val
| VObj : list (string * Val) -> Val.

(** A TOML [Table]: key/value pairs. *)
Definition Table : Type := list (string * Val).

(** Key lookup in a table or mapping (keys are unique in a parsed map). *)
Fixpoint lookup (k : string) (t : list (string * Val)) : option Val :=
  match t with
  | [] => None
  | (k', v) :: t' => if String.eqb k k' then Some v else lookup k t'
  end.

(** Bounds of Rust's [i64]. *)
Definition i64_min : Z := - 2 ^ 63.
Definition i64_max : Z := 2 ^ 63 - 1.
Definition in_i64 (q : Z) : bool := (i64_min <=? q) && (q <=? i64_max).

(** [q as u32] for a 64-bit integer [q]: keep the low 32 bits. *)
Definition as_u32 (q : Z) : Z := q mod 2 ^ 32.

(** ** [ValidToy] *)

Record ValidToy : Type := mkValidToy {
  item : string;
  quantity : Z  (* a u32 *)
}.

(** [impl TryFrom<Table> for ValidToy]: [quantity] is read first, then
    [item]; the error strings are dropped (only [Ok]/[Err] matters). *)
Definition toml_try_from (value : Table) : option ValidToy :=
  match lookup "quantity" value with
  | Some (VInt q) =>
      match lookup "item" value with
      | Some (VStr it) => Some (mkValidToy it (as_u32 q))
      | Some _ => None   (* "Invalid item type" *)
      | None => None     (* "Missing item" *)
      end
  | Some _ => None       (* "Invalid quantity type" *)
  | None => None         (* "Missing quantity" *)
  end.

(** [value["key"]] of [serde_json::Value] / [serde_yaml::Value]: on a
    mapping the entry or [Null] when absent, on any other value [Null]. *)
Definition index (v : Val) (k : string) : Val :=
  match v with
  | VObj m => match lookup k m with Some x => x | None => VNull end
  | _ => VNull
  end.

(** [Value::as_str]. *)
Definition as_str (v : Val) : option string :=
  match v with VStr s => Some s | _ => None end.

(** [Value::as_i64]: an integer that fits in [i64]. *)
Definition as_i64 (v : Val) : option Z :=
  match v with VInt q => if in_i64 q then Some q else None | _ => None end.

(** [impl TryFrom<serde_yaml::Value> for ValidToy] and
    [impl TryFrom<serde_json::Value> for ValidToy] (the same body). *)
Definition value_try_from (value : Val) : option ValidToy :=
  match as_str (index value "item") with
  | None => None          (* "Invalid item" *)
  | Some it =>
      match as_i64 (index value "quantity") with
      | None => None      (* "Invalid quantity" *)
      | Some q => Some (mkValidToy it (as_u32 q))
      end
  end.

Definition yaml_try_from : Val -> option ValidToy := value_try_from.
Definition json_try_from : Val -> option ValidToy := value_try_from.

(** ** [impl Display for ValidToy]: ["{item}: {quantity}"] *)

Definition digit_char (d : Decimal.uint) : ascii :=
  match d with
  | Decimal.D0 _ => "0" | Decimal.D1 _ => "1" | Decimal.D2 _ => "2"
  | Decimal.D3 _ => "3" | Decimal.D4 _ => "4" | Decimal.D5 _ => "5"
  | Decimal.D6 _ => "6" | Decimal.D7 _ => "7" | Decimal.D8 _ => "8"
  | Decimal.D9 _ => "9" | Decimal.Nil => "0"
  end%char.

Fixpoint string_of_uint (d : Decimal.uint) : string :=
  match d with
  | Decimal.Nil => EmptyString
  | Decimal.D0 r | Decimal.D1 r | Decimal.D2 r | Decimal.D3 r | Decimal.D4 r
  | Decimal.D5 r | Decimal.D6 r | Decimal.D7 r | Decimal.D8 r | Decimal.D9 r =>
      String (digit_char d) (string_of_uint r)
  end.

(** Decimal text of an unsigned integer. *)
Definition show_u32 (n : Z) : string := string_of_uint (N.to_uint (Z.to_N n)).

Definition display (t : ValidToy) : string :=
  item t ++ ": " ++ show_u32 (quantity t).

(** ** The generic schema [Manifest<T>] *)

Record ManifestPackageMetadata (T : Type) : Type := mkMetadata {
  orders : option (list T)
}.

Record ManifestPackage (T : Type) : Type := mkPackage {
  name : string;
  keywords : option (list string);
  metadata : option (ManifestPackageMetadata T)
}.

Record Manifest (T : Type) : Type := mkManifest {
  package : ManifestPackage T
}.

Arguments mkMetadata {T}.
Arguments orders {T}.
Arguments mkPackage {T}.
Arguments name {T}.
Arguments keywords {T}.
Arguments metadata {T}.
Arguments mkManifest {T}.
Arguments package {T}.

(** ** Errors and responses *)

Inductive ManifestParseError : Type :=
| InvalidContentType
| InvalidManifest
| MissingMagicKeyword
| MissingOrders.

(** The [#[error("...")]] message of each variant ([self.to_string()]). *)
Definition error_message (e : ManifestParseError) : string :=
  match e with
  | InvalidContentType => ""
  | InvalidManifest => "Invalid manifest"
  | MissingMagicKeyword => "Magic keyword not provided"
  | MissingOrders => ""
  end.

Definition status_code (e : ManifestParseError) : Z :=
  match e with
  | InvalidContentType => 415
  | MissingMagicKeyword => 400
  | InvalidManifest => 400
  | MissingOrders => 204
  end.

(** The outcome of a parsing function: [Result<String, ManifestParseError>],
    or a panic of one of its [unwrap()] calls. *)
Inductive Outcome : Type :=
| Done : string -> Outcome
| Fail : ManifestParseError -> Outcome
| Panic : Outcome.

(** What the client gets: a status and a body, or no response at all when
    the handler panicked. *)
Inductive Reply : Type :=
| Response : Z -> string -> Reply
| Panicked : Reply.

(** [impl IntoResponse for ManifestParseError]. *)
Definition error_into_response (e : ManifestParseError) : Reply :=
  Response (status_code e) (error_message e).

(** [Result<String, ManifestParseError>::into_response]: [Ok] is a 200. *)
Definition into_response (o : Outcome) : Reply :=
  match o with
  | Done s => Response 200 s
  | Fail e => error_into_response e
  | Panic => Panicked
  end.

(** ** [parse_manifest] *)

(** [filter_map(|o| ValidToy::try_from(o).ok())]. *)
Fixpoint filter_map {T : Type} (f : T -> option ValidToy) (l : list T)
  : list ValidToy :=
  match l with
  | [] => []
  | x :: l' =>
      match f x with
      | Some t => t :: filter_map f l'
      | None => filter_map f l'
      end
  end.

(** [Vec<String>::contains(&String::from("Christmas 2024"))]. *)
Definition contains_magic (ks : list string) : bool :=
  existsb (String.eqb "Christmas 2024") ks.

(** The separator ["\n"] of [join]: one line feed. *)
Definition newline : string := String (ascii_of_nat 10) EmptyString.

Definition is_empty (s : string) : bool :=
  match s with EmptyString => true | _ => false end.

Definition parse_manifest {T : Type} (try_from : T -> option ValidToy)
  (manifest : Manifest T) : Outcome :=
  let keywords_opt := keywords (package manifest) in
  match keywords_opt with
  | None => Fail MissingMagicKeyword
  | Some ks =>
      if negb (contains_magic ks) then Fail MissingMagicKeyword
      else
        match metadata (package manifest) with
        | None => Fail MissingOrders
        | Some md =>
            match orders md with
            | None => Fail MissingOrders
            | Some os =>
                let toys :=
                  String.concat newline (map display (filter_map try_from os)) in
                if is_empty toys then Fail MissingOrders else Done toys
            end
        end
  end.

(** ** Binding the schema: [serde::Deserialize] for [Manifest<T>]

    The derived deserialisers read a struct from a map (unknown keys are
    ignored, a missing [Option] field is [None]) or, through the
    [serde_json] and [toml] deserialisers, from a sequence holding exactly
    one element per field.  An [Option<_>] is [None] on [null].
    [serde_yaml::from_value] reads a struct from a mapping only: see
    [yaml_manifest_of] below. *)

Section Bind.

Variable T : Type.
(** Deserialising one order entry as a [T]. *)
Variable elem : Val -> option T.

(** [Option<U>] from a present value. *)
Definition opt_of {U : Type} (f : Val -> option U) (v : Val) : option (option U) :=
  match v with
  | VNull => Some None
  | _ => match f v with Some u => Some (Some u) | None => None end
  end.

(** An [Option<U>] field of a map: absent means [None]. *)
Definition opt_field {U : Type} (f : Val -> option U) (k : string)
  (m : list (string * Val)) : option (option U) :=
  match lookup k m with
  | None => Some None
  | Some v => opt_of f v
  end.

(** [Vec<U>] from a sequence, every element converted. *)
Fixpoint vec_of {U : Type} (f : Val -> option U) (vs : list Val)
  : option (list U) :=
  match vs with
  | [] => Some []
  | v :: vs' =>
      match f v, vec_of f vs' with
      | Some u, Some us => Some (u :: us)
      | _, _ => None
      end
  end.

Definition seq_of {U : Type} (f : Val -> option U) (v : Val) : option (list U) :=
  match v with VArr vs => vec_of f vs | _ => None end.

Definition string_of (v : Val) : option string := as_str v.

Definition metadata_of (v : Val) : option (ManifestPackageMetadata T) :=
  match v with
  | VObj m =>
      match opt_field (seq_of elem) "orders" m with
      | Some os => Some (mkMetadata os)
      | None => None
      end
  | VArr [o] =>
      match opt_of (seq_of elem) o with
      | Some os => Some (mkMetadata os)
      | None => None
      end
  | _ => None
  end.

Definition package_of (v : Val) : option (ManifestPackage T) :=
  match v with
  | VObj m =>
      match lookup "name" m, opt_field (seq_of string_of) "keywords" m,
            opt_field metadata_of "metadata" m with
      | Some n, Some ks, Some md =>
          match string_of n with
          | Some n' => Some (mkPackage n' ks md)
          | None => None
          end
      | _, _, _ => None
      end
  | VArr [n; k; md] =>
      match string_of n, opt_of (seq_of string_of) k, opt_of metadata_of md with
      | Some n', Some ks, Some md' => Some (mkPackage n' ks md')
      | _, _, _ => None
      end
  | _ => None
  end.

(** [from_value::<Manifest<T>>] / [from_str::<Manifest<T>>] on a parsed tree. *)
Definition manifest_of (v : Val) : option (Manifest T) :=
  match v with
  | VObj m =>
      match lookup "package" m with
      | Some p => match package_of p with
                  | Some p' => Some (mkManifest p')
                  | None => None
                  end
      | None => None
      end
  | VArr [p] =>
      match package_of p with
      | Some p' => Some (mkManifest p')
      | None => None
      end
  | _ => None
  end.

End Bind.

(** A [toml::Table] order entry: only a table deserialises as one. *)
Definition table_of (v : Val) : option Table :=
  match v with VObj t => Some t | _ => None end.

(** A [serde_yaml::Value] / [serde_json::Value] order entry: anything. *)
Definition value_of (v : Val) : option Val := Some v.

(** [serde_yaml::from_value::<Manifest<serde_yaml::Value>>]: the same
    binding, except that a struct is read from a mapping only (a sequence
    is an invalid type for it). *)
Definition yaml_metadata_of (v : Val) : option (ManifestPackageMetadata Val) :=
  match v with
  | VObj m =>
      match opt_field (seq_of value_of) "orders" m with
      | Some os => Some (mkMetadata os)
      | None => None
      end
  | _ => None
  end.

Definition yaml_package_of (v : Val) : option (ManifestPackage Val) :=
  match v with
  | VObj m =>
      match lookup "name" m, opt_field (seq_of string_of) "keywords" m,
            opt_field yaml_metadata_of "metadata" m with
      | Some n, Some ks, Some md =>
          match string_of n with
          | Some n' => Some (mkPackage n' ks md)
          | None => None
          end
      | _, _, _ => None
      end
  | _ => None
  end.

Definition yaml_manifest_of (v : Val) : option (Manifest Val) :=
  match v with
  | VObj m =>
      match lookup "package" m with
      | Some p => match yaml_package_of p with
                  | Some p' => Some (mkManifest p')
                  | None => None
                  end
      | None => None
      end
  | _ => None
  end.

(** ** The crates the adapters call *)

Record Collab : Type := mkCollab {
  (** the TOML parser ([toml::from_str]) producing the document's tree *)
  toml_from_str : string -> option Val;
  (** [serde_yaml::from_str::<serde_yaml::Value>] *)
  yaml_from_str : string -> option Val;
  (** [serde_json::from_str::<serde_json::Value>] *)
  json_from_str : string -> option Val;
  (** [toml::to_string] of a value tree *)
  toml_to_string : Val -> option string;
  (** [cargo_manifest::Manifest::from_str(..).is_ok()] *)
  cargo_manifest_ok : string -> bool
}.

Section Adapters.

Variable c : Collab.

(** [parse_toml]: the Cargo-manifest check on the body first, then
    [toml::from_str::<Manifest<Table>>(&body).unwrap()]. *)
Definition parse_toml (body : string) : Outcome :=
  if negb (cargo_manifest_ok c body) then Fail InvalidManifest
  else
    match toml_from_str c body with
    | None => Panic
    | Some doc =>
        match manifest_of Table table_of doc with
        | None => Panic
        | Some package_manifest => parse_manifest toml_try_from package_manifest
        end
    end.

(** [parse_yaml]: [from_str(..).unwrap()], [toml::to_string] (error mapped
    to [InvalidManifest]), [serde_yaml::from_value(..).unwrap()], then the
    check. *)
Definition parse_yaml (body : string) : Outcome :=
  match yaml_from_str c body with
  | None => Panic
  | Some raw =>
      match toml_to_string c raw with
      | None => Fail InvalidManifest
      | Some toml_string =>
          match yaml_manifest_of raw with
          | None => Panic
          | Some manifest =>
              if negb (cargo_manifest_ok c toml_string) then Fail InvalidManifest
              else parse_manifest yaml_try_from manifest
          end
      end
  end.

(** [parse_json]: as [parse_yaml], but the parse error is mapped to
    [InvalidManifest] and the tree is bound by [serde_json::from_value]. *)
Definition parse_json (body : string) : Outcome :=
  match json_from_str c body with
  | None => Fail InvalidManifest
  | Some raw =>
      match toml_to_string c raw with
      | None => Fail InvalidManifest
      | Some toml_string =>
          match manifest_of Val value_of raw with
          | None => Panic
          | Some manifest =>
              if negb (cargo_manifest_ok c toml_string) then Fail InvalidManifest
              else parse_manifest json_try_from manifest
          end
      end
  end.

(** [HeaderValue::to_str]: succeeds when every byte is visible ASCII
    (32..126) or a tab. *)
Definition visible_ascii (a : ascii) : bool :=
  let n := nat_of_ascii a in
  (Nat.eqb n 9 || (Nat.leb 32 n && Nat.ltb n 127))%bool.

Fixpoint all_visible (s : string) : bool :=
  match s with
  | EmptyString => true
  | String a s' => visible_ascii a && all_visible s'
  end.

Definition to_str (hv : string) : option string :=
  if all_visible hv then Some hv else None.

(** The handler [manifest]; [content_type] is [headers.get("Content-Type")],
    the raw bytes of the header value when present. *)
Definition manifest (content_type : option string) (body : string) : Reply :=
  match content_type with
  | None => Response 400 "Missing Content Type"
  | Some hv =>
      match to_str hv with
      | None => Response 400 "Missing Content Type"
      | Some ct =>
          into_response
            (if String.eqb ct "application/toml" then parse_toml body
             else if String.eqb ct "application/yaml" then parse_yaml body
             else if String.eqb ct "application/json" then parse_json body
             else Fail InvalidContentType)
      end
  end.

End Adapters.

(** ** The request loop

    Each request runs [manifest]; its only other effect is the [dbg!(&body)]
    line written to stderr, kept here as the list of logged bodies. *)

Definition handle (c : Collab) (stderr : list string)
  (req : option string * string) : list string * Reply :=
  ((stderr ++ [snd req])%list, manifest c (fst req) (snd req)).

Fixpoint serve (c : Collab) (stderr : list string)
  (reqs : list (option string * string)) : list string * list Reply :=
  match reqs with
  | [] => (stderr, [])
  | r :: rs =>
      let (stderr', rep) := handle c stderr r in
      let (stderr'', reps) := serve c stderr' rs in
      (stderr'', rep :: reps)
  end.

(** ** Concrete documents *)

Definition dq : string := String (ascii_of_nat 34) EmptyString.
(** A JSON string literal (no escapes needed in the texts below). *)
Definition jstr (s : string) : string := dq ++ s ++ dq.

(** The crates on one document given by its three texts: each parser
    returns [doc] on its own text and fails on anything else, [toml::to_string]
    returns the TOML text, and the Cargo-manifest check accepts that text. *)
Definition one_doc (toml_text yaml_text json_text : string) (doc : Val) : Collab :=
  {| toml_from_str := fun b => if String.eqb b toml_text then Some doc else None;
     yaml_from_str := fun b => if String.eqb b yaml_text then Some doc else None;
     json_from_str := fun b => if String.eqb b json_text then Some doc else None;
     toml_to_string := fun _ => Some toml_text;
     cargo_manifest_ok := fun s => String.eqb s toml_text |}.

Definition lines (ls : list string) : string :=
  String.concat newline ls ++ newline.

(** Scenario 1 of the spec: one order ["Teddy Bear", 5]. *)
Definition teddy_doc : Val :=
  VObj [("package",
         VObj [("name", VStr "not-a-gift-order");
               ("version", VStr "0.1.0");
               ("keywords", VArr [VStr "Christmas 2024"]);
               ("metadata",
                VObj [("orders",
                       VArr [VObj [("item", VStr "Teddy Bear");
                                   ("quantity", VInt 5)]])])])].

Definition teddy_toml : string :=
  lines ["[package]"; "name = 'not-a-gift-order'"; "version = '0.1.0'";
         "keywords = ['Christmas 2024']"; ""; "[[package.metadata.orders]]";
         "item = 'Teddy Bear'"; "quantity = 5"].

Definition teddy_yaml : string :=
  lines ["package:"; "  name: not-a-gift-order"; "  version: 0.1.0";
         "  keywords: [Christmas 2024]"; "  metadata:";
         "    orders:"; "      - item: Teddy Bear"; "        quantity: 5"].

Definition teddy_json : string :=
  "{" ++ jstr "package" ++ ":{" ++ jstr "name" ++ ":" ++ jstr "not-a-gift-order"
  ++ "," ++ jstr "version" ++ ":" ++ jstr "0.1.0"
  ++ "," ++ jstr "keywords" ++ ":[" ++ jstr "Christmas 2024" ++ "]"
  ++ "," ++ jstr "metadata" ++ ":{" ++ jstr "orders" ++ ":[{"
  ++ jstr "item" ++ ":" ++ jstr "Teddy Bear" ++ "," ++ jstr "quantity" ++ ":5}]}}}".

Definition teddy_collab : Collab := one_doc teddy_toml teddy_yaml teddy_json teddy_doc.

(** ** Definitions used by the properties *)

(** A mix: a bad quantity type, a good entry, a non-mapping, a good entry. *)
Definition mixed_orders : list Val :=
  [VObj [("item", VStr "Bike"); ("quantity", VStr "five")];
   VObj [("item", VStr "Doll"); ("quantity", VInt 2)];
   VInt 7;
   VObj [("item", VStr "Ball"); ("quantity", VInt 3)]].

Definition with_orders (ks : option (list string)) (os : list Val) : Manifest Val :=
  mkManifest (mkPackage "p" ks (Some (mkMetadata (Some os)))).

(** The JSON body [{}]: an empty object, whose TOML form is the empty
    document. *)
Definition empty_object_collab : Collab := one_doc "" "{}" "{}" (VObj []).












(** ** [src/ridiculous_routing.rs]: the address handlers

    The handlers of [/2/dest], [/2/key], [/2/v6/dest] and [/2/v6/key]
    (routed in [main.rs]).  An address is its octet array ([octets()]):
    a list of bytes, each a [Z] in [0, 256).  The query extraction
    ([Query<..>], [Ipv4Addr::from_str]) is axum's and the standard
    library's and is not modelled; neither is [Ipv6Addr]'s [Display]. *)

(** [res[i] = x] on an array; the loops below only index below the
    length, where Rust's bound check never fails. *)
Fixpoint array_set (res : list Z) (i : nat) (x : Z) : list Z :=
  match res, i with
  | [], _ => []
  | _ :: t, O => x :: t
  | h :: t, S i' => h :: array_set t i' x
  end.

(** [for i in start..start+n { res[i] = f(a[i], b[i]) }]. *)
Fixpoint octet_loop (f : Z -> Z -> Z) (a b : list Z) (i n : nat) (res : list Z)
  : list Z :=
  match n with
  | O => res
  | S n' => octet_loop f a b (S i) n' (array_set res i (f (nth i a 0) (nth i b 0)))
  end.

(** [u8::overflowing_add(x, y).0] and [u8::overflowing_sub(x, y).0]. *)
Definition u8_overflowing_add (x y : Z) : Z := (x + y) mod 256.
Definition u8_overflowing_sub (x y : Z) : Z := (x - y) mod 256.

(** [dest]: [res[i] = from[i].overflowing_add(key[i]).0], [res = [0; 4]]. *)
Definition dest_octets (from key : list Z) : list Z :=
  octet_loop u8_overflowing_add from key 0 4 (repeat 0 4).

(** [key]: [res[i] = to[i].overflowing_sub(from[i]).0]. *)
Definition key_octets (from to : list Z) : list Z :=
  octet_loop u8_overflowing_sub to from 0 4 (repeat 0 4).

(** [v6_dest]: [res[i] = from[i] ^ key[i]], [res = [0; 16]]. *)
Definition v6_dest_octets (from key : list Z) : list Z :=
  octet_loop Z.lxor from key 0 16 (repeat 0 16).

(** [v6_key]: [res[i] = to[i] ^ from[i]]. *)
Definition v6_key_octets (from to : list Z) : list Z :=
  octet_loop Z.lxor to from 0 16 (repeat 0 16).

(** [Ipv4Addr]'s [Display]: the four octets in decimal, dot separated. *)
Definition ipv4_to_string (o : list Z) : string :=
  String.concat "." (map show_u32 o).

(** The [dest] and [key] handlers: [Ipv4Addr::from(res).to_string()]. *)
Definition dest (from key : list Z) : string := ipv4_to_string (dest_octets from key).
Definition key (from to : list Z) : string := ipv4_to_string (key_octets from to).

(** [n] bytes: an [[u8; n]]. *)
Definition octets (n : nat) (o : list Z) : Prop :=
  length o = n /\ Forall (fun x => 0 <= x < 256) o.

(** The body [null]: a YAML/JSON tree with no TOML form
    ([toml::to_string] refuses a bare null), and no TOML reading. *)
Definition null_collab : Collab :=
  {| toml_from_str := fun _ => None;
     yaml_from_str := fun b => if String.eqb b "null" then Some VNull else None;
     json_from_str := fun b => if String.eqb b "null" then Some VNull else None;
     toml_to_string := fun _ => None;
     cargo_manifest_ok := fun _ => false |}.

(** A package with [edition = 5]: it binds to [Manifest] (unknown keys are
    ignored) but the Cargo-manifest check refuses a non-string edition. *)
Definition bad_edition_doc : Val :=
  VObj [("package", VObj [("name", VStr "x"); ("edition", VInt 5);
                          ("keywords", VArr [VStr "Christmas 2024"])])].

Definition bad_edition_collab : Collab :=
  {| toml_from_str := fun _ => Some bad_edition_doc;
     yaml_from_str := fun _ => Some bad_edition_doc;
     json_from_str := fun _ => Some bad_edition_doc;
     toml_to_string := fun _ => Some (lines ["[package]"; "name = 'x'"; "edition = 5";
                                            "keywords = ['Christmas 2024']"]);
     cargo_manifest_ok := fun _ => false |}.

(** * Properties *)

(** ** The spec's scenarios on concrete documents *)

Example teddy_all_formats :
  manifest teddy_collab (Some "application/toml") teddy_toml = Response 200 "Teddy Bear: 5" /\
  manifest teddy_collab (Some "application/yaml") teddy_yaml = Response 200 "Teddy Bear: 5" /\
  manifest teddy_collab (Some "application/json") teddy_json = Response 200 "Teddy Bear: 5".
Proof. vm_compute. repeat split. Qed.

Example no_header : manifest teddy_collab None teddy_json = Response 400 "Missing Content Type".
Proof. reflexivity. Qed.

Example xml_header :
  manifest teddy_collab (Some "application/xml") teddy_json = Response 415 "".
Proof. reflexivity. Qed.

Example show_u32_values :
  show_u32 0 = "0" /\ show_u32 4294967295 = "4294967295" /\ as_u32 (-1) = 4294967295.
Proof. vm_compute. repeat split. Qed.

(** ** Helper lemmas *)

Lemma contains_magic_In (ks : list string) :
  contains_magic ks = true <-> In "Christmas 2024" ks.
Proof.
  unfold contains_magic. rewrite existsb_exists. split.
  - intros [x [Hin Heq]]. apply String.eqb_eq in Heq. subst. exact Hin.
  - intros Hin. exists "Christmas 2024". split; [exact Hin | apply String.eqb_refl].
Qed.

Lemma filter_map_flat_map {T : Type} (f : T -> option ValidToy) (l : list T) :
  filter_map f l = flat_map (fun o => match f o with Some t => [t] | None => [] end) l.
Proof.
  induction l as [| x l IH]; simpl; [reflexivity |].
  destruct (f x); simpl; rewrite IH; reflexivity.
Qed.

Lemma is_empty_app_l (a b : string) :
  is_empty a = false -> is_empty (a ++ b) = false.
Proof. destruct a; simpl; congruence. Qed.

Lemma display_not_empty (t : ValidToy) : is_empty (display t) = false.
Proof. unfold display. destruct (item t); reflexivity. Qed.

Lemma concat_display_not_empty (ts : list ValidToy) :
  ts <> [] -> is_empty (String.concat newline (map display ts)) = false.
Proof.
  destruct ts as [| t [| t' ts]]; intros Hne; [congruence | |].
  - apply display_not_empty.
  - simpl. apply is_empty_app_l, display_not_empty.
Qed.

Lemma filter_map_nil_iff {T : Type} (f : T -> option ValidToy) (l : list T) :
  filter_map f l = [] <-> Forall (fun o => f o = None) l.
Proof.
  induction l as [| x l IH]; simpl.
  - split; auto.
  - destruct (f x) eqn:Hf.
    + split; [discriminate | intros H; inversion H; congruence].
    + rewrite IH. split; [intros H; constructor; auto | intros H; inversion H; auto].
Qed.

(** ** C3: the magic keyword gate *)

(** C3: for a manifest of any format whose [keywords] are absent or hold
    no element equal to ["Christmas 2024"], the response is 400 with body
    ["Magic keyword not provided"], whatever [metadata] holds: the check
    comes before [metadata] is looked at. *)
Theorem magic_keyword_gate {T : Type} (try_from : T -> option ValidToy)
  (m : Manifest T) :
  (keywords (package m) = None \/
   exists ks, keywords (package m) = Some ks /\ ~ In "Christmas 2024" ks) ->
  into_response (parse_manifest try_from m) =
  Response 400 "Magic keyword not provided".
Proof.
  intros [Hnone | [ks [Hks Hnin]]]; unfold parse_manifest.
  - rewrite Hnone. reflexivity.
  - rewrite Hks. destruct (contains_magic ks) eqn:Hc.
    + apply contains_magic_In in Hc. contradiction.
    + reflexivity.
Qed.

(** A keyword list with near misses only (other case, trailing space). *)
Lemma magic_keyword_gate_witness :
  let m := mkManifest (mkPackage "p" (Some ["christmas 2024"; "Christmas 2024 "; "Christmas"])
             (Some (mkMetadata (Some [VObj [("item", VStr "a"); ("quantity", VInt 1)]])))) in
  ~ In "Christmas 2024" ["christmas 2024"; "Christmas 2024 "; "Christmas"] /\
  into_response (parse_manifest json_try_from m) =
  Response 400 "Magic keyword not provided".
Proof.
  cbv zeta. split.
  - simpl. intros [H | [H | [H | []]]]; discriminate.
  - apply magic_keyword_gate. right. eexists. split; [reflexivity |].
    simpl. intros [H | [H | [H | []]]]; discriminate.
Defined.

(** ** C4: order-preserving, non-fatal filtering *)

(** C4: once the keyword is present and [metadata.orders] is a list with at
    least one convertible entry, the response is 200 and its body is the
    convertible entries, in their order, each shown as ["{item}: {quantity}"],
    joined by one line feed; the other entries are skipped. *)
Theorem orders_filtered_in_order {T : Type} (try_from : T -> option ValidToy)
  (m : Manifest T) (ks : list string) (os : list T) :
  keywords (package m) = Some ks -> In "Christmas 2024" ks ->
  metadata (package m) = Some (mkMetadata (Some os)) ->
  (exists o, In o os /\ try_from o <> None) ->
  into_response (parse_manifest try_from m) =
  Response 200
    (String.concat newline
       (map (fun t => item t ++ ": " ++ show_u32 (quantity t))
          (flat_map (fun o => match try_from o with Some t => [t] | None => [] end) os))).
Proof.
  intros Hks Hin Hmd [o [Ho Hconv]].
  unfold parse_manifest. rewrite Hks.
  apply contains_magic_In in Hin. rewrite Hin. simpl negb. cbv iota.
  rewrite Hmd. simpl orders. cbv iota.
  rewrite concat_display_not_empty.
  - rewrite filter_map_flat_map. reflexivity.
  - intros Hnil. apply filter_map_nil_iff in Hnil.
    rewrite Forall_forall in Hnil. exact (Hconv (Hnil o Ho)).
Qed.

Lemma orders_filtered_in_order_witness :
  into_response (parse_manifest json_try_from (with_orders (Some ["Christmas 2024"]) mixed_orders)) =
  Response 200 ("Doll: 2" ++ newline ++ "Ball: 3").
Proof.
  rewrite (orders_filtered_in_order json_try_from
             (with_orders (Some ["Christmas 2024"]) mixed_orders) ["Christmas 2024"] mixed_orders).
  - vm_compute. reflexivity.
  - reflexivity.
  - left. reflexivity.
  - reflexivity.
  - exists (VObj [("item", VStr "Doll"); ("quantity", VInt 2)]). split.
    + simpl. right. left. reflexivity.
    + vm_compute. discriminate.
Defined.

(** ** C5: every kind of emptiness is a 204 *)

(** C5: once the keyword is present, a missing [metadata], a missing
    [metadata.orders], an empty [orders] list and a list of entries that all
    fail conversion all give status 204 with an empty body. *)
Theorem empty_orders_no_content {T : Type} (try_from : T -> option ValidToy)
  (m : Manifest T) (ks : list string) :
  keywords (package m) = Some ks -> In "Christmas 2024" ks ->
  (metadata (package m) = None \/
   (exists md, metadata (package m) = Some md /\ orders md = None) \/
   (exists md, metadata (package m) = Some md /\ orders md = Some []) \/
   (exists md os, metadata (package m) = Some md /\ orders md = Some os /\
                  Forall (fun o => try_from o = None) os)) ->
  into_response (parse_manifest try_from m) = Response 204 "".
Proof.
  intros Hks Hin Hcases.
  unfold parse_manifest. rewrite Hks.
  apply contains_magic_In in Hin. rewrite Hin. simpl negb. cbv iota.
  destruct Hcases as [Hmd | [[md [Hmd Ho]] | [[md [Hmd Ho]] | [md [os [Hmd [Ho Hall]]]]]]];
    rewrite Hmd; try reflexivity; rewrite Ho; try reflexivity.
  apply filter_map_nil_iff in Hall. rewrite Hall. reflexivity.
Qed.

Lemma empty_orders_no_content_witness :
  let bad := [VObj [("item", VStr "Bike"); ("quantity", VStr "five")]; VNull] in
  into_response (parse_manifest yaml_try_from (with_orders (Some ["Christmas 2024"]) bad))
  = Response 204 "".
Proof.
  cbv zeta.
  apply (empty_orders_no_content yaml_try_from _ ["Christmas 2024"]).
  - reflexivity.
  - left. reflexivity.
  - right. right. right. eexists. eexists. split; [reflexivity | split; [reflexivity |]].
    repeat constructor.
Defined.

(** ** C6: quantities wrap modulo 2^32 *)

(** C6: for an order entry whose [quantity] is a 64-bit signed integer [q],
    each of the TOML, YAML and JSON conversions gives quantity [q mod 2^32]
    (negative and too large values wrap), and whether the entry converts at
    all depends on [item] only. *)
Theorem quantity_wraps_mod_2_32 (t : Table) (q : Z) :
  lookup "quantity" t = Some (VInt q) -> - 2 ^ 63 <= q < 2 ^ 63 ->
  let expected :=
    match lookup "item" t with
    | Some (VStr it) => Some (mkValidToy it (q mod 2 ^ 32))
    | _ => None
    end in
  toml_try_from t = expected /\
  yaml_try_from (VObj t) = expected /\
  json_try_from (VObj t) = expected.
Proof.
  intros Hq Hrange. cbv zeta.
  assert (Hin : in_i64 q = true).
  { unfold in_i64, i64_min, i64_max. apply andb_true_intro.
    split; [apply Z.leb_le | apply Z.leb_le]; lia. }
  assert (Hv : value_try_from (VObj t) =
               match lookup "item" t with
               | Some (VStr it) => Some (mkValidToy it (q mod 2 ^ 32))
               | _ => None
               end).
  { unfold value_try_from, index. rewrite Hq.
    destruct (lookup "item" t) as [[] |]; simpl; try reflexivity.
    rewrite Hin. reflexivity. }
  split; [| split; exact Hv].
  unfold toml_try_from. rewrite Hq. reflexivity.
Qed.

Lemma quantity_wraps_mod_2_32_witness :
  let t := [("item", VStr "Coal"); ("quantity", VInt (-1))] in
  toml_try_from t = Some (mkValidToy "Coal" 4294967295) /\
  yaml_try_from (VObj t) = Some (mkValidToy "Coal" 4294967295) /\
  json_try_from (VObj t) = Some (mkValidToy "Coal" 4294967295).
Proof.
  cbv zeta.
  pose proof (quantity_wraps_mod_2_32 [("item", VStr "Coal"); ("quantity", VInt (-1))] (-1))
    as H.
  cbv zeta in H. simpl lookup in H. cbv iota in H.
  replace (-1 mod 2 ^ 32) with 4294967295 in H by reflexivity.
  apply H; [reflexivity | lia].
Defined.

(** An unsigned JSON/YAML integer above [i64::MAX] is not a 64-bit signed
    integer: [as_i64] refuses it and the entry is dropped. *)
Lemma u64_quantity_rejected :
  json_try_from (VObj [("item", VStr "a"); ("quantity", VInt (2 ^ 63))]) = None.
Proof. vm_compute. reflexivity. Qed.

(** ** C7: content-type dispatch *)

(** C7: with no Content-Type header, or one whose value is not visible
    ASCII, the response is 400 ["Missing Content Type"]; with a readable
    value other than the three media types it is 415 with an empty body;
    in both cases the response does not depend on the body nor on the
    parsers (the body is never parsed). *)
Theorem content_type_dispatch (c : Collab) (hv : option string) (body : string) :
  ((hv = None \/ exists v, hv = Some v /\ to_str v = None) ->
   manifest c hv body = Response 400 "Missing Content Type" /\
   forall c' body', manifest c' hv body' = manifest c hv body) /\
  (forall v, hv = Some v -> to_str v = Some v ->
   v <> "application/toml" -> v <> "application/yaml" -> v <> "application/json" ->
   manifest c hv body = Response 415 "" /\
   forall c' body', manifest c' hv body' = manifest c hv body).
Proof.
  split.
  - intros [-> | [v [-> Hv]]]; unfold manifest.
    + split; reflexivity.
    + rewrite Hv. split; reflexivity.
  - intros v -> Hv Ht Hy Hj. unfold manifest. rewrite Hv.
    apply String.eqb_neq in Ht, Hy, Hj. rewrite Ht, Hy, Hj.
    split; reflexivity.
Qed.

Lemma content_type_dispatch_witness :
  (manifest teddy_collab (Some (String (ascii_of_nat 200) "")) teddy_json =
     Response 400 "Missing Content Type" /\
   forall c' body', manifest c' (Some (String (ascii_of_nat 200) "")) body' =
                    manifest teddy_collab (Some (String (ascii_of_nat 200) "")) teddy_json) /\
  (manifest teddy_collab (Some "application/json; charset=utf-8") teddy_json = Response 415 "" /\
   forall c' body', manifest c' (Some "application/json; charset=utf-8") body' =
                    manifest teddy_collab (Some "application/json; charset=utf-8") teddy_json).
Proof.
  pose proof (content_type_dispatch teddy_collab (Some (String (ascii_of_nat 200) "")) teddy_json)
    as [H1 _].
  pose proof (content_type_dispatch teddy_collab (Some "application/json; charset=utf-8") teddy_json)
    as [_ H2].
  split.
  - apply H1. right. eexists. split; [reflexivity | reflexivity].
  - apply (H2 "application/json; charset=utf-8"); try reflexivity; discriminate.
Defined.

(** ** C9: a pure function of the request *)

Lemma serve_log_and_replies (c : Collab) (stderr : list string)
  (reqs : list (option string * string)) :
  serve c stderr reqs =
  ((stderr ++ map snd reqs)%list, map (fun r => manifest c (fst r) (snd r)) reqs).
Proof.
  revert stderr. induction reqs as [| r rs IH]; intros stderr; simpl.
  - rewrite app_nil_r. reflexivity.
  - rewrite IH. rewrite <- app_assoc. reflexivity.
Qed.

(** C9: over any sequence of requests, whatever was logged before, each
    reply is [manifest] applied to that request alone; the only effect of a
    request is its [dbg!] line; so the same request sent twice in a row gets
    the same reply twice. *)
Theorem serve_deterministic (c : Collab) (stderr : list string)
  (reqs : list (option string * string)) :
  snd (serve c stderr reqs) = map (fun r => manifest c (fst r) (snd r)) reqs /\
  fst (serve c stderr reqs) = (stderr ++ map snd reqs)%list /\
  (forall stderr' r,
     snd (serve c stderr' [r; r]) =
     [manifest c (fst r) (snd r); manifest c (fst r) (snd r)]).
Proof.
  rewrite serve_log_and_replies. simpl. split; [reflexivity | split; [reflexivity |]].
  intros stderr' r. reflexivity.
Qed.

(** ** C10: non-mapping entries *)

Lemma filter_map_app {T : Type} (f : T -> option ValidToy) (l1 l2 : list T) :
  filter_map f (l1 ++ l2) = (filter_map f l1 ++ filter_map f l2)%list.
Proof.
  induction l1 as [| x l1 IH]; simpl; [reflexivity |].
  destruct (f x); rewrite IH; reflexivity.
Qed.

Lemma value_try_from_non_mapping (o : Val) :
  (forall m, o <> VObj m) -> value_try_from o = None.
Proof.
  intros H. destruct o; try reflexivity. exfalso. exact (H l eq_refl).
Qed.

(** C10: a YAML or JSON order entry that is not a mapping indexes to [null]
    at ["item"] and ["quantity"], fails conversion, and removing it from
    [orders] changes nothing in the outcome. *)
Theorem non_mapping_entry_dropped (o : Val) :
  (forall m, o <> VObj m) ->
  index o "item" = VNull /\ index o "quantity" = VNull /\
  yaml_try_from o = None /\ json_try_from o = None /\
  (forall (n : string) (ks : option (list string)) (pre post : list Val),
     parse_manifest yaml_try_from
       (mkManifest (mkPackage n ks (Some (mkMetadata (Some (pre ++ o :: post)%list))))) =
     parse_manifest yaml_try_from
       (mkManifest (mkPackage n ks (Some (mkMetadata (Some (pre ++ post)%list))))) /\
     parse_manifest json_try_from
       (mkManifest (mkPackage n ks (Some (mkMetadata (Some (pre ++ o :: post)%list))))) =
     parse_manifest json_try_from
       (mkManifest (mkPackage n ks (Some (mkMetadata (Some (pre ++ post)%list)))))).
Proof.
  intros Hno.
  assert (Hidx : forall k, index o k = VNull).
  { intros k. destruct o; try reflexivity. exfalso. exact (Hno l eq_refl). }
  pose proof (value_try_from_non_mapping o Hno) as Hv.
  split; [apply Hidx |]. split; [apply Hidx |].
  split; [exact Hv |]. split; [exact Hv |].
  intros n ks pre post.
  unfold parse_manifest; simpl.
  rewrite !filter_map_app. simpl. unfold yaml_try_from, json_try_from. rewrite Hv.
  split; reflexivity.
Qed.

Lemma non_mapping_entry_dropped_witness :
  index (VArr [VStr "item"]) "item" = VNull /\ index (VArr [VStr "item"]) "quantity" = VNull /\
  yaml_try_from (VArr [VStr "item"]) = None /\ json_try_from (VArr [VStr "item"]) = None /\
  (forall (n : string) (ks : option (list string)) (pre post : list Val),
     parse_manifest yaml_try_from
       (mkManifest (mkPackage n ks (Some (mkMetadata (Some (pre ++ VArr [VStr "item"] :: post)%list))))) =
     parse_manifest yaml_try_from
       (mkManifest (mkPackage n ks (Some (mkMetadata (Some (pre ++ post)%list))))) /\
     parse_manifest json_try_from
       (mkManifest (mkPackage n ks (Some (mkMetadata (Some (pre ++ VArr [VStr "item"] :: post)%list))))) =
     parse_manifest json_try_from
       (mkManifest (mkPackage n ks (Some (mkMetadata (Some (pre ++ post)%list)))))).
Proof.
  apply non_mapping_entry_dropped. intros m H. discriminate H.
Defined.

(** ** C1, C2: panics of the [unwrap()] calls *)

(** C2 (as the code behaves): a body the YAML parser rejects makes
    [serde_yaml::from_str(..).unwrap()] panic: no response is produced. *)
Theorem yaml_syntax_error_panics (c : Collab) (body : string) :
  yaml_from_str c body = None ->
  manifest c (Some "application/yaml") body = Panicked.
Proof.
  intros H. unfold manifest. simpl. unfold parse_yaml. rewrite H. reflexivity.
Qed.

Lemma yaml_syntax_error_panics_witness :
  yaml_from_str teddy_collab "package: [" = None /\
  manifest teddy_collab (Some "application/yaml") "package: [" = Panicked.
Proof.
  split; [reflexivity |]. apply yaml_syntax_error_panics. reflexivity.
Defined.

(** C1 (as the code behaves): a JSON document that parses and has a TOML
    form but does not bind to [Manifest] (e.g. no [package]) makes
    [serde_json::from_value(..).unwrap()] panic. *)
Theorem json_schema_error_panics (c : Collab) (body s : string) (raw : Val) :
  json_from_str c body = Some raw -> toml_to_string c raw = Some s ->
  manifest_of Val value_of raw = None ->
  manifest c (Some "application/json") body = Panicked.
Proof.
  intros Hp Hs Hb. unfold manifest. simpl. unfold parse_json.
  rewrite Hp, Hs, Hb. reflexivity.
Qed.

Lemma json_schema_error_panics_witness :
  json_from_str empty_object_collab "{}" = Some (VObj []) /\
  manifest empty_object_collab (Some "application/json") "{}" = Panicked.
Proof.
  split; [reflexivity |].
  apply (json_schema_error_panics empty_object_collab "{}" "" (VObj []));
    reflexivity.
Defined.

(** ** C8: cross-format equivalence *)











(** What [serde_yaml::from_value] binds, [serde_json::from_value] binds
    the same way: the YAML binding is the mapping-only part of it. *)
Lemma opt_of_mono {A : Type} (f g : Val -> option A) :
  (forall v a, f v = Some a -> g v = Some a) ->
  forall v x, opt_of f v = Some x -> opt_of g v = Some x.
Proof.
  intros H v x. unfold opt_of.
  destruct v; try (intros E; exact E);
    destruct (f _) as [a |] eqn:E; intros E'; try discriminate;
    rewrite (H _ _ E); exact E'.
Qed.

Lemma opt_field_mono {A : Type} (f g : Val -> option A) :
  (forall v a, f v = Some a -> g v = Some a) ->
  forall k m x, opt_field f k m = Some x -> opt_field g k m = Some x.
Proof.
  intros H k m x. unfold opt_field.
  destruct (lookup k m); [apply opt_of_mono; exact H | intros E; exact E].
Qed.

Lemma yaml_metadata_of_json (v : Val) (md : ManifestPackageMetadata Val) :
  yaml_metadata_of v = Some md -> metadata_of Val value_of v = Some md.
Proof. destruct v; try discriminate. intros H; exact H. Qed.

Lemma yaml_package_of_json (v : Val) (p : ManifestPackage Val) :
  yaml_package_of v = Some p -> package_of Val value_of v = Some p.
Proof.
  destruct v as [| | | | | | l]; try discriminate.
  unfold yaml_package_of, package_of.
  destruct (lookup "name" l) as [n |]; [| discriminate].
  destruct (opt_field (seq_of string_of) "keywords" l) as [ks |]; [| discriminate].
  destruct (opt_field yaml_metadata_of "metadata" l) as [md |] eqn:E; [| discriminate].
  rewrite (opt_field_mono _ _ yaml_metadata_of_json _ _ _ E). intros H; exact H.
Qed.

Lemma yaml_manifest_of_json (v : Val) (m : Manifest Val) :
  yaml_manifest_of v = Some m -> manifest_of Val value_of v = Some m.
Proof.
  destruct v as [| | | | | | l]; try discriminate.
  unfold yaml_manifest_of, manifest_of.
  destruct (lookup "package" l) as [p |]; [| discriminate].
  destruct (yaml_package_of p) as [p' |] eqn:E; [| discriminate].
  rewrite (yaml_package_of_json _ _ E). intros H; exact H.
Qed.




(** ** The address handlers *)

Example dest_challenge :
  dest [10; 0; 0; 0] [1; 2; 3; 255] = "11.2.3.255" /\
  key [10; 0; 0; 0] [11; 2; 3; 255] = "1.2.3.255" /\
  dest [128; 128; 128; 128] [128; 129; 130; 131] = "0.1.2.3".
Proof. vm_compute. repeat split. Qed.

Lemma array_set_length (res : list Z) (i : nat) (x : Z) :
  length (array_set res i x) = length res.
Proof.
  revert i. induction res as [| h t IH]; intros [| i]; simpl; try rewrite IH; reflexivity.
Qed.

Lemma firstn_array_set (res : list Z) (i : nat) (x : Z) :
  (i < length res)%nat -> firstn (S i) (array_set res i x) = (firstn i res ++ [x])%list.
Proof.
  revert i. induction res as [| h t IH]; intros [| i] Hi; simpl in *; try lia.
  - reflexivity.
  - rewrite IH by lia. reflexivity.
Qed.

Lemma octet_loop_spec (f : Z -> Z -> Z) (a b : list Z) (n i : nat) (res : list Z) :
  (i + n)%nat = length res ->
  octet_loop f a b i n res =
  (firstn i res ++ map (fun j => f (nth j a 0) (nth j b 0)) (seq i n))%list.
Proof.
  revert i res. induction n as [| n IH]; intros i res Hlen; simpl.
  - rewrite app_nil_r, firstn_all2 by lia. reflexivity.
  - rewrite IH by (rewrite array_set_length; lia).
    rewrite firstn_array_set by lia. rewrite <- app_assoc. reflexivity.
Qed.

(** The loop fills the whole array: element [j] is [f a[j] b[j]]. *)
Lemma octet_loop_full (f : Z -> Z -> Z) (a b : list Z) (n : nat) :
  octet_loop f a b 0 n (repeat 0 n) = map (fun j => f (nth j a 0) (nth j b 0)) (seq 0 n).
Proof. rewrite octet_loop_spec by (rewrite repeat_length; lia). reflexivity. Qed.

Lemma map_nth_seq_self (l : list Z) :
  map (fun j => nth j l 0) (seq 0 (length l)) = l.
Proof.
  induction l as [| x l IH]; [reflexivity |]. simpl. f_equal.
  rewrite <- seq_shift, map_map. exact IH.
Qed.

Lemma map_seq_ext (g h : nat -> Z) (n : nat) :
  (forall j, (j < n)%nat -> g j = h j) -> map g (seq 0 n) = map h (seq 0 n).
Proof.
  intros H. apply map_ext_in. intros j Hj. apply in_seq in Hj. apply H. lia.
Qed.

Lemma nth_map_seq_lt (g : nat -> Z) (n j : nat) :
  (j < n)%nat -> nth j (map g (seq 0 n)) 0 = g j.
Proof.
  intros Hj. rewrite nth_indep with (d' := g 0%nat) by (rewrite length_map, length_seq; lia).
  rewrite map_nth, seq_nth by lia. reflexivity.
Qed.

Lemma nth_byte (o : list Z) (n j : nat) :
  octets n o -> (j < n)%nat -> 0 <= nth j o 0 < 256.
Proof.
  intros [Hlen Hall] Hj. rewrite Forall_forall in Hall. apply Hall, nth_In. lia.
Qed.

(** The IPv4 [key] handler undoes [dest]: for any two addresses, the key
    computed from [from] and [dest(from, key)] is [key] again, octet by
    octet through the wrap-around at 256. *)
Theorem key_of_dest_roundtrip (from k : list Z) :
  octets 4 from -> octets 4 k -> key_octets from (dest_octets from k) = k.
Proof.
  intros Hf Hk. unfold key_octets, dest_octets. rewrite !octet_loop_full.
  etransitivity; [| exact (map_nth_seq_self k)]. destruct Hk as [Hlen Hall].
  rewrite Hlen. apply map_seq_ext. intros j Hj.
  rewrite nth_map_seq_lt by exact Hj.
  unfold u8_overflowing_sub, u8_overflowing_add.
  rewrite Zminus_mod_idemp_l. replace (nth j from 0 + nth j k 0 - nth j from 0) with (nth j k 0) by lia.
  apply Z.mod_small. apply (nth_byte k 4); [exact (conj Hlen Hall) | exact Hj].
Qed.

Lemma key_of_dest_roundtrip_witness :
  key_octets [10; 0; 0; 0] (dest_octets [10; 0; 0; 0] [1; 2; 3; 255]) = [1; 2; 3; 255].
Proof.
  apply key_of_dest_roundtrip; split; try reflexivity; repeat constructor; lia.
Defined.

(** The IPv4 [dest] handler undoes [key]: [dest(from, key(from, to))] is
    [to] for any two addresses. *)
Theorem dest_of_key_roundtrip (from to : list Z) :
  octets 4 from -> octets 4 to -> dest_octets from (key_octets from to) = to.
Proof.
  intros Hf Ht. unfold key_octets, dest_octets. rewrite !octet_loop_full.
  etransitivity; [| exact (map_nth_seq_self to)]. destruct Ht as [Hlen Hall].
  rewrite Hlen. apply map_seq_ext. intros j Hj.
  rewrite nth_map_seq_lt by exact Hj.
  unfold u8_overflowing_sub, u8_overflowing_add.
  rewrite Zplus_mod_idemp_r. replace (nth j from 0 + (nth j to 0 - nth j from 0)) with (nth j to 0) by lia.
  apply Z.mod_small. apply (nth_byte to 4); [exact (conj Hlen Hall) | exact Hj].
Qed.

Lemma dest_of_key_roundtrip_witness :
  dest_octets [255; 0; 10; 200] (key_octets [255; 0; 10; 200] [0; 1; 2; 3]) = [0; 1; 2; 3].
Proof.
  apply dest_of_key_roundtrip; split; try reflexivity; repeat constructor; lia.
Defined.

(** The IPv6 [v6_key] and [v6_dest] handlers compute the same octets:
    [to[i] ^ from[i]] and [from[i] ^ key[i]] differ only in the order of
    the XOR operands. *)
Theorem v6_key_is_v6_dest (a b : list Z) : v6_key_octets a b = v6_dest_octets a b.
Proof.
  unfold v6_key_octets, v6_dest_octets. rewrite !octet_loop_full.
  apply map_seq_ext. intros j _. apply Z.lxor_comm.
Qed.

(** The IPv6 [v6_key] handler undoes [v6_dest]: XOR with [from] twice
    gives the key back. *)
Theorem v6_key_of_dest_roundtrip (from k : list Z) :
  length k = 16%nat -> v6_key_octets from (v6_dest_octets from k) = k.
Proof.
  intros Hlen. unfold v6_key_octets, v6_dest_octets. rewrite !octet_loop_full.
  etransitivity; [| exact (map_nth_seq_self k)]. rewrite Hlen. apply map_seq_ext. intros j Hj.
  rewrite nth_map_seq_lt by exact Hj.
  rewrite Z.lxor_comm, <- Z.lxor_assoc, Z.lxor_nilpotent, Z.lxor_0_l. reflexivity.
Qed.

Lemma v6_key_of_dest_roundtrip_witness :
  let from := [32; 1; 13; 184; 0; 0; 0; 0; 0; 0; 0; 0; 0; 0; 0; 1] in
  let k := [255; 255; 0; 0; 18; 52; 0; 0; 0; 0; 0; 0; 171; 205; 0; 7] in
  v6_key_octets from (v6_dest_octets from k) = k.
Proof. cbv zeta. apply v6_key_of_dest_roundtrip. reflexivity. Defined.

(** ** More of the manifest endpoint *)

Lemma parse_manifest_not_panic {T : Type} (f : T -> option ValidToy) (m : Manifest T) :
  parse_manifest f m <> Panic.
Proof.
  unfold parse_manifest.
  destruct (keywords (package m)); [| discriminate].
  destruct (negb (contains_magic l)); [discriminate |].
  destruct (metadata (package m)) as [md |]; [| discriminate].
  destruct (orders md); [| discriminate].
  destruct (is_empty _); discriminate.
Qed.

Lemma parse_manifest_done_nonempty {T : Type} (f : T -> option ValidToy)
  (m : Manifest T) (s : string) :
  parse_manifest f m = Done s -> s <> "".
Proof.
  unfold parse_manifest.
  destruct (keywords (package m)); [| discriminate].
  destruct (negb (contains_magic l)); [discriminate |].
  destruct (metadata (package m)) as [md |]; [| discriminate].
  destruct (orders md); [| discriminate].
  destruct (is_empty _) eqn:He; [discriminate |].
  intros H. injection H as <-. intros H. rewrite H in He. discriminate.
Qed.

Lemma into_response_panicked (o : Outcome) : into_response o = Panicked <-> o = Panic.
Proof. destruct o as [s | e |]; [| destruct e |]; simpl; split; intros H; (reflexivity || discriminate H). Qed.

Lemma to_str_some (v s : string) : to_str v = Some s -> s = v.
Proof. unfold to_str. destruct (all_visible v); congruence. Qed.

(** Exactly when the manifest handler panics: for TOML, when the body
    passes the Cargo check but does not parse as a [Manifest<Table>]; for
    YAML, when the body is not YAML, or its tree has a TOML form but does
    not bind to [Manifest] from mappings as [serde_yaml] requires; for
    JSON, only when its tree has a TOML form but does not bind to
    [Manifest] under [serde_json]; and never
    for any other Content-Type (or none). *)
Theorem manifest_panic_conditions (c : Collab) (body : string) :
  (manifest c (Some "application/toml") body = Panicked <->
   cargo_manifest_ok c body = true /\
   match toml_from_str c body with
   | None => True
   | Some d => manifest_of Table table_of d = None
   end) /\
  (manifest c (Some "application/yaml") body = Panicked <->
   match yaml_from_str c body with
   | None => True
   | Some raw => toml_to_string c raw <> None /\ yaml_manifest_of raw = None
   end) /\
  (manifest c (Some "application/json") body = Panicked <->
   exists raw, json_from_str c body = Some raw /\ toml_to_string c raw <> None /\
               manifest_of Val value_of raw = None) /\
  (forall hv, hv <> Some "application/toml" -> hv <> Some "application/yaml" ->
              hv <> Some "application/json" -> manifest c hv body <> Panicked).
Proof.
  split; [| split; [| split]].
  - unfold manifest. simpl. rewrite into_response_panicked. unfold parse_toml.
    destruct (cargo_manifest_ok c body); simpl.
    + destruct (toml_from_str c body) as [d |]; [| split; auto].
      destruct (manifest_of Table table_of d) as [m |].
      * split; [intros H; exfalso; exact (parse_manifest_not_panic _ _ H) |].
        intros [_ H]; discriminate.
      * split; auto.
    + split; [discriminate | intros [H _]; discriminate].
  - unfold manifest. simpl. rewrite into_response_panicked. unfold parse_yaml.
    destruct (yaml_from_str c body) as [raw |]; [| split; auto].
    destruct (toml_to_string c raw) as [s |].
    + destruct (yaml_manifest_of raw) as [m |].
      * split; [| intros [_ H]; discriminate].
        destruct (negb (cargo_manifest_ok c s)); [discriminate |].
        intros H; exfalso; exact (parse_manifest_not_panic _ _ H).
      * split; [intros _; split; [discriminate | reflexivity] | intros _; reflexivity].
    + split; [discriminate | intros [H _]; exfalso; apply H; reflexivity].
  - unfold manifest. simpl. rewrite into_response_panicked. unfold parse_json.
    destruct (json_from_str c body) as [raw |].
    + destruct (toml_to_string c raw) as [s |] eqn:Hs.
      * destruct (manifest_of Val value_of raw) as [m |] eqn:Hm.
        -- split; [| intros [r [Hr [_ H]]]; injection Hr as <-; congruence].
           destruct (negb (cargo_manifest_ok c s)); [discriminate |].
           intros H; exfalso; exact (parse_manifest_not_panic _ _ H).
        -- split; [intros _; exists raw; split; [reflexivity | split; [rewrite Hs; discriminate | exact Hm]] | intros _; reflexivity].
      * split; [discriminate |].
        intros [r [Hr [H _]]]. injection Hr as <-. exfalso. apply H. exact Hs.
    + split; [discriminate | intros [r [Hr _]]; discriminate].
  - intros hv Ht Hy Hj. unfold manifest.
    destruct hv as [v |]; [| discriminate].
    destruct (to_str v) as [s |] eqn:Hs; [| discriminate].
    apply to_str_some in Hs. subst s.
    destruct (String.eqb v "application/toml") eqn:E1;
      [apply String.eqb_eq in E1; subst; contradiction |].
    destruct (String.eqb v "application/yaml") eqn:E2;
      [apply String.eqb_eq in E2; subst; contradiction |].
    destruct (String.eqb v "application/json") eqn:E3;
      [apply String.eqb_eq in E3; subst; contradiction |].
    discriminate.
Qed.

Lemma manifest_panic_conditions_witness :
  manifest empty_object_collab (Some "application/json") "{}" = Panicked /\
  manifest teddy_collab (Some "application/yaml") "package: [" = Panicked /\
  manifest teddy_collab (Some "application/toml") teddy_toml <> Panicked /\
  manifest teddy_collab (Some "text/plain") "package: [" <> Panicked.
Proof.
  pose proof (manifest_panic_conditions empty_object_collab "{}") as [_ [_ [Hj _]]].
  pose proof (manifest_panic_conditions teddy_collab "package: [") as [_ [Hy [_ Ho]]].
  pose proof (manifest_panic_conditions teddy_collab teddy_toml) as [Ht _].
  split; [| split; [| split]].
  - apply Hj. exists (VObj []). split; [reflexivity | split; [discriminate | reflexivity]].
  - apply Hy. exact I.
  - rewrite Ht. intros [_ H]. vm_compute in H. discriminate.
  - apply Ho; discriminate.
Defined.

Definition invalid_manifest_reply : Reply := Response 400 "Invalid manifest".

(** The paths that answer 400 ["Invalid manifest"] without a panic: a TOML
    body the Cargo check refuses (before it is even parsed), a JSON syntax
    error, a YAML or JSON tree with no TOML form (before schema binding), and
    a YAML or JSON manifest whose TOML form the Cargo check refuses. *)
Theorem invalid_manifest_paths (c : Collab) (body : string) :
  (cargo_manifest_ok c body = false ->
   manifest c (Some "application/toml") body = invalid_manifest_reply) /\
  (json_from_str c body = None ->
   manifest c (Some "application/json") body = invalid_manifest_reply) /\
  (forall raw, yaml_from_str c body = Some raw -> toml_to_string c raw = None ->
   manifest c (Some "application/yaml") body = invalid_manifest_reply) /\
  (forall raw, json_from_str c body = Some raw -> toml_to_string c raw = None ->
   manifest c (Some "application/json") body = invalid_manifest_reply) /\
  (forall raw s m, yaml_from_str c body = Some raw -> toml_to_string c raw = Some s ->
   yaml_manifest_of raw = Some m -> cargo_manifest_ok c s = false ->
   manifest c (Some "application/yaml") body = invalid_manifest_reply) /\
  (forall raw s m, json_from_str c body = Some raw -> toml_to_string c raw = Some s ->
   manifest_of Val value_of raw = Some m -> cargo_manifest_ok c s = false ->
   manifest c (Some "application/json") body = invalid_manifest_reply).
Proof.
  unfold manifest, invalid_manifest_reply. simpl.
  unfold parse_toml, parse_yaml, parse_json.
  split; [intros H; rewrite H; reflexivity |].
  split; [intros H; rewrite H; reflexivity |].
  split; [intros raw H1 H2; rewrite H1, H2; reflexivity |].
  split; [intros raw H1 H2; rewrite H1, H2; reflexivity |].
  split; intros raw s m H1 H2 H3 H4; rewrite H1, H2, H3, H4; reflexivity.
Qed.

Lemma invalid_manifest_paths_witness :
  manifest teddy_collab (Some "application/toml") "name = 1" = invalid_manifest_reply /\
  manifest teddy_collab (Some "application/json") "{" = invalid_manifest_reply /\
  manifest null_collab (Some "application/yaml") "null" = invalid_manifest_reply /\
  manifest null_collab (Some "application/json") "null" = invalid_manifest_reply /\
  manifest bad_edition_collab (Some "application/yaml") "" = invalid_manifest_reply /\
  manifest bad_edition_collab (Some "application/json") "" = invalid_manifest_reply.
Proof.
  pose proof (invalid_manifest_paths teddy_collab "name = 1") as [Ht _].
  pose proof (invalid_manifest_paths teddy_collab "{") as [_ [Hj _]].
  pose proof (invalid_manifest_paths null_collab "null") as [_ [_ [Hy0 [Hj0 _]]]].
  pose proof (invalid_manifest_paths bad_edition_collab "") as [_ [_ [_ [_ [Hy1 Hj1]]]]].
  split; [apply Ht; reflexivity |].
  split; [apply Hj; reflexivity |].
  split; [apply (Hy0 VNull); reflexivity |].
  split; [apply (Hj0 VNull); reflexivity |].
  split; [eapply Hy1; reflexivity | eapply Hj1; reflexivity].
Defined.

Lemma adapters_done_nonempty (c : Collab) (body s : string) :
  (parse_toml c body = Done s \/ parse_yaml c body = Done s \/ parse_json c body = Done s) ->
  s <> "".
Proof.
  unfold parse_toml, parse_yaml, parse_json.
  intros [H | [H | H]];
    repeat match type of H with
           | context [match ?x with _ => _ end] => destruct x
           end;
    try discriminate; eapply parse_manifest_done_nonempty; exact H.
Qed.

(** Every reply of the manifest handler that is not a panic is one of:
    200 with a non-empty body, 204 or 415 with an empty body, or 400 with
    ["Missing Content Type"], ["Invalid manifest"] or
    ["Magic keyword not provided"]. *)
Theorem manifest_reply_shapes (c : Collab) (hv : option string) (body : string) :
  match manifest c hv body with
  | Panicked => True
  | Response st b =>
      (st = 200 /\ b <> "") \/ (st = 204 /\ b = "") \/ (st = 415 /\ b = "") \/
      (st = 400 /\ (b = "Missing Content Type" \/ b = "Invalid manifest" \/
                    b = "Magic keyword not provided"))
  end.
Proof.
  assert (Hshape : forall o, (forall s, o = Done s -> s <> "") ->
    match into_response o with
    | Panicked => True
    | Response st b =>
        (st = 200 /\ b <> "") \/ (st = 204 /\ b = "") \/ (st = 415 /\ b = "") \/
        (st = 400 /\ (b = "Missing Content Type" \/ b = "Invalid manifest" \/
                      b = "Magic keyword not provided"))
    end).
  { intros [s | [] |] H; simpl;
      first [ exact I
            | left; split; [reflexivity | exact (H s eq_refl)]
            | right; left; split; reflexivity
            | right; right; left; split; reflexivity
            | right; right; right; split; [reflexivity | auto] ]. }
  unfold manifest.
  destruct hv as [v |]; [| right; right; right; split; [reflexivity | left; reflexivity]].
  destruct (to_str v) as [ct |]; [| right; right; right; split; [reflexivity | left; reflexivity]].
  apply Hshape. intros s.
  destruct (String.eqb ct "application/toml");
    [intros H; apply (adapters_done_nonempty c body); auto |].
  destruct (String.eqb ct "application/yaml");
    [intros H; apply (adapters_done_nonempty c body); auto |].
  destruct (String.eqb ct "application/json");
    [intros H; apply (adapters_done_nonempty c body); auto |].
  discriminate.
Qed.

(** Once parsed, the YAML and JSON adapters are the same on trees that
    [serde_yaml] binds to [Manifest] (mappings only): a YAML body and a
    JSON body that parse to the same such tree get the same outcome. *)
Theorem yaml_json_adapters_agree (c : Collab) (b_yaml b_json : string) (d : Val) :
  yaml_from_str c b_yaml = Some d -> json_from_str c b_json = Some d ->
  yaml_manifest_of d <> None ->
  parse_yaml c b_yaml = parse_json c b_json.
Proof.
  intros Hy Hj Hb. unfold parse_yaml, parse_json. rewrite Hy, Hj.
  destruct (yaml_manifest_of d) as [m |] eqn:Hym; [| contradiction].
  rewrite (yaml_manifest_of_json d m Hym). reflexivity.
Qed.

Lemma yaml_json_adapters_agree_witness :
  parse_yaml teddy_collab teddy_yaml = parse_json teddy_collab teddy_json.
Proof.
  apply (yaml_json_adapters_agree teddy_collab _ _ teddy_doc);
    [reflexivity | reflexivity | vm_compute; discriminate].
Defined.

(** The TOML conversion (quantity checked first) and the YAML/JSON
    conversion (item checked first) accept the same tables and build the
    same [ValidToy], as long as an integer quantity fits in [i64] (as every
    TOML integer does). *)
Theorem table_and_value_conversions_agree (t : Table) :
  (forall q, lookup "quantity" t = Some (VInt q) -> in_i64 q = true) ->
  toml_try_from t = yaml_try_from (VObj t) /\ toml_try_from t = json_try_from (VObj t).
Proof.
  intros H.
  assert (E : toml_try_from t = value_try_from (VObj t)).
  { unfold toml_try_from, value_try_from, index.
    destruct (lookup "quantity" t) as [[] |] eqn:Hq;
      destruct (lookup "item" t) as [[] |]; simpl; try reflexivity.
    rewrite (H _ eq_refl). reflexivity. }
  split; exact E.
Qed.

Lemma table_and_value_conversions_agree_witness :
  toml_try_from [("quantity", VInt 3); ("item", VFloat "1.5")] =
  json_try_from (VObj [("quantity", VInt 3); ("item", VFloat "1.5")]).
Proof.
  apply (table_and_value_conversions_agree [("quantity", VInt 3); ("item", VFloat "1.5")]).
  intros q Hq. injection Hq as <-. reflexivity.
Defined.

(** [parse_manifest] ignores the package name, and reads [keywords] only
    through whether ["Christmas 2024"] is among them: order, duplicates
    and other keywords change nothing. *)
Theorem keyword_membership_only {T : Type} (f : T -> option ValidToy)
  (n1 n2 : string) (ks1 ks2 : list string) (md : option (ManifestPackageMetadata T)) :
  (In "Christmas 2024" ks1 <-> In "Christmas 2024" ks2) ->
  parse_manifest f (mkManifest (mkPackage n1 (Some ks1) md)) =
  parse_manifest f (mkManifest (mkPackage n2 (Some ks2) md)).
Proof.
  intros Hiff. unfold parse_manifest. simpl.
  destruct (contains_magic ks1) eqn:H1, (contains_magic ks2) eqn:H2; try reflexivity.
  - apply contains_magic_In, Hiff, contains_magic_In in H1. congruence.
  - apply contains_magic_In, Hiff, contains_magic_In in H2. congruence.
Qed.

Lemma keyword_membership_only_witness :
  parse_manifest json_try_from
    (mkManifest (mkPackage "a" (Some ["toys"; "Christmas 2024"; "Christmas 2024"])
                   (Some (mkMetadata (Some mixed_orders))))) =
  parse_manifest json_try_from
    (mkManifest (mkPackage "b" (Some ["Christmas 2024"])
                   (Some (mkMetadata (Some mixed_orders))))).
Proof.
  apply keyword_membership_only. simpl. tauto.
Defined.
